(** * Error barriers (package [barriers])

    A shallow embedding of [barriers/barriers.go]: the [barrierError] leaf
    type, its three constructors, its methods ([Error], [SafeDetails],
    [FormatError]) and the leaf codec ([encodeBarrier], [decodeBarrier]).

    The package is glue over [errbase], [fmt] and [proto].  What those
    packages compute (the causal codec, [Sprintf], the safe details of a
    link, [Fill]) is a parameter of the development; what [barriers.go] does
    with it is defined here.  Module [errbase] gives the payload and [Fill]
    of that package for the statements that depend on what [Fill] writes. *)

From Equations Require Import Equations.
From Stdlib Require Import String List Arith Lia Bool.
Import ListNotations.
Open Scope string_scope.
Open Scope list_scope.

Module barriers.

(** Outcome of a Go call that may panic.  A failed type assertion
    [x.(T)] panics; nothing in this package recovers. *)
Inductive outcome (A : Type) : Type :=
| Returns (a : A)
| Panics.
Arguments Returns {A} a.
Arguments Panics {A}.

(** The struct [barrierError], with the type of the masked chain left open
    so that it can be one of the dynamic types of [error] below. *)
Record barrierError_ (E : Type) : Type := mkBarrier {
  msg : string;            (* Message for the barrier itself. *)
  maskedErr : option E     (* Masked error chain. *)
}.
Arguments mkBarrier {E} msg maskedErr.
Arguments msg {E} b.
Arguments maskedErr {E} b.

Module errbase.

(** Modelled from the spec: the struct [errbase.SafeDetailPayload], declared
    outside this package: what [errbase.GetSafeDetails] returns for one link.
    Section 6: "this link's own privacy-safe diagnostic strings"; the
    payload also names the link's type. *)
Record SafeDetailPayload : Type := mkPayload {
  OriginalTypeName : string;
  SafeDetails : list string
}.

Section Details.

(** The header line formatted from a type name. *)
Variable detailsHeader : string -> string.

(** Modelled from the spec: the method [Fill] of [errbase.SafeDetailPayload],
    whose body is not in this package.  Section 4.3 has it append the link's
    strings to the running sequence, and a link without strings add nothing.
    Before the strings of a link that has some, the method also appends one
    header line naming the link's type. *)
Definition Fill (s : SafeDetailPayload) (slice : list string) : list string :=
  match SafeDetails s with
  | [] => slice
  | _ :: _ => (slice ++ [detailsHeader (OriginalTypeName s)]) ++ SafeDetails s
  end.

(** What [Fill] adds for one payload. *)
Definition written (s : SafeDetailPayload) : list string :=
  match SafeDetails s with
  | [] => []
  | _ :: _ => detailsHeader (OriginalTypeName s) :: SafeDetails s
  end.


End Details.

End errbase.

Section Errors.

(** Error values whose dynamic type is declared outside this package, and
    what their [Error()] method returns. *)
Variable extError : Type.
Variable extError_Error : extError -> string.

(** A non-nil Go [error]: either a value of a foreign type together with
    what its [Cause()]/[Unwrap()] method yields (nil when the type has no such
    method), or a [*barrierError].  The latter always points to a struct:
    the type is unexported and its values are only ever built with
    [&barrierError{...}]. *)
#[warnings="-register-all"]
Inductive errorValue : Type :=
| External (x : extError) (cause : option errorValue)
| Barrier (b : barrierError_ errorValue).

(** The interface type [error]; [None] is Go's [nil]. *)
Definition error : Type := option errorValue.
Definition nil_error : error := None.

Definition barrierError : Type := barrierError_ errorValue.

Fixpoint err_size (e : errorValue) : nat :=
  match e with
  | External _ None => 1
  | External _ (Some c) => S (err_size c)
  | Barrier b =>
      match maskedErr b with
      | None => 1
      | Some m => S (err_size m)
      end
  end.

Definition error_size (e : error) : nat :=
  match e with
  | None => 0
  | Some e => err_size e
  end.

(** [func (e *barrierError) Error() string { return e.msg }] *)
Definition Error (e : barrierError) : string := msg e.

(** Dynamic dispatch of [err.Error()] on a non-nil interface value. *)
Definition err_Error (e : errorValue) : string :=
  match e with
  | External x _ => extError_Error x
  | Barrier b => Error b
  end.

(** [func HandledWithMessage(err error, msg string) error] *)
Definition HandledWithMessage (err : error) (msg : string) : error :=
  match err with
  | None => nil_error
  | Some e => Some (Barrier {| maskedErr := Some e; msg := msg |})
  end.

(** [func Handled(err error) error] *)
Definition Handled (err : error) : error :=
  match err with
  | None => nil_error
  | Some e => HandledWithMessage err (err_Error e)
  end.

(** Modelled from the spec: [errbase.UnwrapOnce], whose body is not in this
    package.  Section 6: it "returns the next inner cause of a chain, or null
    at the end".  It can only follow a [Cause()] or [Unwrap()] method;
    [*barrierError] declares [Error], [SafeDetails], [Format] and
    [FormatError] and neither of those two, so there is nothing to follow. *)
Definition UnwrapOnce (e : errorValue) : error :=
  match e with
  | External _ cause => cause
  | Barrier _ => nil_error
  end.

(** ** What [errbase], [fmt] and [proto] provide *)

(** [context.Context]; the codec only passes it on. *)
Variable context : Type.

(** [errbase.EncodedError] and the causal codec
    [errbase.EncodeError] / [errbase.DecodeError]. *)
Variable EncodedError : Type.
Variable EncodeError : context -> error -> EncodedError.
Variable DecodeError : context -> EncodedError -> error.

(** A [proto.Message] is an interface value: a [*errbase.EncodedError], or
    a message of some other dynamic type (a nil interface included). *)
Variable otherMessage : Type.
Inductive protoMessage : Type :=
| EncodedErrorPtr (enc : EncodedError)
| OtherMessage (m : otherMessage).

(** Values passed as [interface{}] to [fmt] and to the printer. *)
Variable otherValue : Type.
Inductive any : Type :=
| AnyString (s : string)
| AnyError (e : error)
| AnyOther (v : otherValue).

(** [fmt.Sprintf]. *)
Variable Sprintf : string -> list any -> string.

(** [errbase.SafeDetailPayload], the value [errbase.GetSafeDetails] returns
    for one link, and its method [Fill]. *)
Variable SafeDetailPayload : Type.
Variable GetSafeDetails : errorValue -> SafeDetailPayload.
Variable Fill : SafeDetailPayload -> list string -> list string.

(** [errbase.Printer], the sink handed to [FormatError]: whether the caller
    asked for detail, and the calls to [Print] and [Printf] received so far,
    oldest first. *)
Inductive printCall : Type :=
| PrintCall (args : list any)
| PrintfCall (format : string) (args : list any).

Record Printer : Type := mkPrinter {
  wantDetail : bool;
  printed : list printCall
}.

Definition Print (p : Printer) (args : list any) : Printer :=
  {| wantDetail := wantDetail p; printed := printed p ++ [PrintCall args] |}.

Definition Printf (p : Printer) (format : string) (args : list any) : Printer :=
  {| wantDetail := wantDetail p; printed := printed p ++ [PrintfCall format args] |}.

Definition Detail (p : Printer) : bool := wantDetail p.

(** [fmt.State] and a verb.  From the two the driver [errbase.FormatError]
    decides what is asked for: rendering through the error's [FormatError]
    with detail ([Some true]) or without ([Some false]), or something else
    ([None]).  [emit] is what the driver does with the calls the printer
    received and with the [next] that [FormatError] returned; [formatOther]
    is what it does in every other case. *)
Variable fmtState : Type.
Variable rune : Type.
Variable requestedDetail : fmtState -> rune -> option bool.
Variable emit : fmtState -> rune -> list printCall -> error -> fmtState.
Variable formatOther : errorValue -> fmtState -> rune -> fmtState.

(** ** Methods of [*barrierError] *)

(** [func HandledWithMessagef(err error, format string, args ...interface{}) error] *)
Definition HandledWithMessagef (err : error) (format : string) (args : list any)
  : error :=
  match err with
  | None => nil_error
  | Some e => Some (Barrier {| maskedErr := Some e; msg := Sprintf format args |})
  end.

(** The loop of [SafeDetails], as a function of its two loop variables:
<<
    for err := e.maskedErr; err != nil; err = errbase.UnwrapOnce(err) {
        sd := errbase.GetSafeDetails(err)
        details = sd.Fill(details)
    }
>> *)
Equations SafeDetails_loop (err : error) (details : list string)
  : list string by wf (error_size err) lt :=
  SafeDetails_loop None details := details;
  SafeDetails_loop (Some e) details :=
    let sd := GetSafeDetails e in
    SafeDetails_loop (UnwrapOnce e) (Fill sd details).
Next Obligation.
  destruct e as [x [c|]|b]; simpl; try lia.
  destruct (maskedErr b); lia.
Qed.

(** [func (e *barrierError) SafeDetails() []string] *)
Definition SafeDetails (e : barrierError) : list string :=
  SafeDetails_loop (maskedErr e) [].

(** The format literal of [FormatError],
    ["\noriginal cause behind barrier:\n%+v"], each [\n] escape being one
    line feed. *)
Definition causeFormat : string := "
original cause behind barrier:
%+v".

(** The line feed character, as a string. *)
Definition LF : string := String (Ascii.ascii_of_nat 10) EmptyString.

(** [func (e *barrierError) FormatError(p errbase.Printer) (next error)]

    The receiver is a pointer and the printer is stateful, so both are
    threaded: the result is the receiver and the printer after the call,
    and the returned [next]. *)
Definition FormatError (e : barrierError) (p : Printer)
  : barrierError * Printer * error :=
  let p := Print p [AnyString (msg e)] in
  if Detail p
  then (e, Printf p causeFormat [AnyError (maskedErr e)], nil_error)
  else (e, p, nil_error).

(** Modelled from the spec: the driver [errbase.FormatError], whose body is
    not in this package.  Section 6: it "drives the detailed/compact
    rendering decision and recursion"; section 4.4: the state is Compact by
    default and Detailed when "requested by a verbose-format verb".  On an
    error that implements [errbase.Formatter], as [*barrierError] does, it
    runs the error's [FormatError] on a fresh printer in the mode asked for
    and goes on from what was printed and the returned [next]. *)
Definition errbase_FormatError (err : errorValue) (s : fmtState) (verb : rune)
  : fmtState :=
  match requestedDetail s verb, err with
  | Some detail, Barrier e =>
      let '(_, p, next) := FormatError e (mkPrinter detail []) in
      emit s verb (printed p) next
  | _, _ => formatOther err s verb
  end.

(** [func (e *barrierError) Format(s fmt.State, verb rune)] *)
Definition Format (e : barrierError) (s : fmtState) (verb : rune) : fmtState :=
  errbase_FormatError (Barrier e) s verb.

(** [func encodeBarrier(ctx context.Context, err error)
      (msg string, details []string, payload proto.Message)]

    The type assertion of [err] to [*barrierError] panics on nil and on every
    other dynamic type. *)
Definition encodeBarrier (ctx : context) (err : error)
  : outcome (string * list string * protoMessage) :=
  match err with
  | Some (Barrier e) =>
      let enc := EncodeError ctx (maskedErr e) in
      Returns (msg e, SafeDetails e, EncodedErrorPtr enc)
  | _ => Panics
  end.

(** [func decodeBarrier(ctx context.Context, msg string, _ []string,
      payload proto.Message) error]

    The type assertion of [payload] to [*errbase.EncodedError] panics on
    every other message. *)
Definition decodeBarrier (ctx : context) (msg : string) (_ : list string)
  (payload : protoMessage) : outcome error :=
  match payload with
  | EncodedErrorPtr enc =>
      Returns (Some (Barrier {| msg := msg; maskedErr := DecodeError ctx enc |}))
  | OtherMessage _ => Panics
  end.

(** What the encoder returns on one side, fed to the decoder on the other. *)
Definition decodeEncoded (ctx' : context)
  (r : outcome (string * list string * protoMessage)) : outcome error :=
  match r with
  | Returns (m, details, payload) => decodeBarrier ctx' m details payload
  | Panics => Panics
  end.

(** ** Traversals used to state the properties *)

(** The links reached from [err] by repeated [UnwrapOnce], outermost first:
    what [Cause]/[Unwrap] recursions and [Is] get to see. *)
Equations causal_chain (err : error) : list errorValue by wf (error_size err) lt :=
  causal_chain None := [];
  causal_chain (Some e) := e :: causal_chain (UnwrapOnce e).
Next Obligation.
  destruct e as [x [c|]|b]; simpl; try lia.
  destruct (maskedErr b); lia.
Qed.

(** Number of barriers stacked at the head of an error. *)
Fixpoint barrier_levels (e : errorValue) : nat :=
  match e with
  | External _ _ => 0
  | Barrier b =>
      match maskedErr b with
      | None => 1
      | Some m => S (barrier_levels m)
      end
  end.

Definition error_levels (e : error) : nat :=
  match e with
  | None => 0
  | Some e => barrier_levels e
  end.

(** [Error()] on an interface value that may be nil: calling a method on a
    nil interface panics. *)
Definition error_Error (e : error) : outcome string :=
  match e with
  | None => Panics
  | Some e => Returns (err_Error e)
  end.

(** [inner] wrapped in foreign wrappers, the head of [xs] outermost. *)
Fixpoint wrapWith (xs : list extError) (inner : error) : error :=
  match xs with
  | [] => inner
  | x :: xs' => Some (External x (wrapWith xs' inner))
  end.

(** The wrapper links of [wrapWith xs inner], outermost first. *)
Fixpoint wrappers (xs : list extError) (inner : error) : list errorValue :=
  match xs with
  | [] => []
  | x :: xs' => External x (wrapWith xs' inner) :: wrappers xs' inner
  end.

(** ** Properties *)

Lemma UnwrapOnce_size (e : errorValue) :
  error_size (UnwrapOnce e) < err_size e.
Proof.
  destruct e as [x [c|]|b]; simpl; try lia.
  destruct (maskedErr b); lia.
Qed.

(** Every link of a chain is no larger than the error the chain starts at. *)
Lemma causal_chain_size (err : error) (x : errorValue) :
  In x (causal_chain err) -> err_size x <= error_size err.
Proof.
  funelim (causal_chain err); simp causal_chain; simpl; try tauto.
  intros [<- | Hin]; [lia |].
  match goal with IH : forall _, In _ _ -> _ |- _ => specialize (IH _ Hin) end.
  pose proof (UnwrapOnce_size e). lia.
Qed.

Lemma causal_chain_barrier (b : barrierError) :
  causal_chain (Some (Barrier b)) = [Barrier b].
Proof. simp causal_chain. reflexivity. Qed.

Lemma barrier_not_in_masked_chain (b : barrierError) (e : errorValue) :
  maskedErr b = Some e -> ~ In (Barrier b) (causal_chain (Some e)).
Proof.
  intros Hm Hin. apply causal_chain_size in Hin.
  simpl in Hin. rewrite Hm in Hin. lia.
Qed.

Lemma Handled_some (e : errorValue) :
  Handled (Some e) =
  Some (Barrier {| msg := err_Error e; maskedErr := Some e |}).
Proof. reflexivity. Qed.

Lemma Handled_iter (e : errorValue) (n : nat) :
  exists x : errorValue,
    Nat.iter n Handled (Some e) = Some x /\
    err_Error x = err_Error e /\
    barrier_levels x = n + barrier_levels e.
Proof.
  induction n as [|n [x (Hx & Hmsg & Hlev)]]; simpl.
  - exists e. auto.
  - rewrite Hx, Handled_some. eexists. split; [reflexivity |].
    simpl. unfold Error. simpl. split; [assumption | lia].
Qed.

(** C1 (masking invariant).  For a non-nil [e], each of the three
    constructors returns a [*barrierError] that holds [e] and behaves as a
    leaf: [UnwrapOnce] yields nil on it, the chain that cause-unwrapping
    traverses from it consists of the barrier alone, no link of that chain
    is [e] or a link of the chain of [e], and [FormatError] returns a nil
    [next]. *)
Theorem barrier_masks_cause (e : errorValue) (m format : string)
  (args : list any) :
  Forall (fun r : error =>
            exists b : barrierError,
              r = Some (Barrier b) /\
              maskedErr b = Some e /\
              UnwrapOnce (Barrier b) = nil_error /\
              causal_chain r = [Barrier b] /\
              Forall (fun x => ~ In x (causal_chain (Some e))) (causal_chain r) /\
              forall p : Printer, snd (FormatError b p) = nil_error)
         [Handled (Some e);
          HandledWithMessage (Some e) m;
          HandledWithMessagef (Some e) format args].
Proof.
  assert (leaf : forall b : barrierError,
             maskedErr b = Some e ->
             UnwrapOnce (Barrier b) = nil_error /\
             causal_chain (Some (Barrier b)) = [Barrier b] /\
             Forall (fun x => ~ In x (causal_chain (Some e)))
                    (causal_chain (Some (Barrier b))) /\
             forall p : Printer, snd (FormatError b p) = nil_error).
  { intros b Hb. split; [reflexivity |]. split; [apply causal_chain_barrier |].
    split.
    - rewrite causal_chain_barrier. constructor; [| constructor].
      now apply barrier_not_in_masked_chain.
    - intros p. unfold FormatError. destruct (Detail _); reflexivity. }
  repeat constructor; eexists; (split; [reflexivity |]);
    (split; [reflexivity |]); apply leaf; reflexivity.
Qed.

(** C7 (null propagation).  The three constructors return plain values, not
    outcomes that may panic, and each of them maps the nil error to nil,
    whatever the message, the format and the arguments. *)
Theorem constructors_propagate_nil :
  Handled nil_error = nil_error /\
  (forall m : string, HandledWithMessage nil_error m = nil_error) /\
  (forall (format : string) (args : list any),
      HandledWithMessagef nil_error format args = nil_error).
Proof. repeat split. Qed.

(** C8 (message preservation).  For a non-nil [e], [Handled(e)] is a non-nil
    [*barrierError] whose [Error()] is [e.Error()] and whose masked cause is
    [e] itself. *)
Theorem Handled_preserves_message (e : errorValue) :
  Handled (Some e) <> nil_error /\
  exists b : barrierError,
    Handled (Some e) = Some (Barrier b) /\
    Error b = err_Error e /\
    error_Error (Handled (Some e)) = Returns (err_Error e) /\
    maskedErr b = Some e.
Proof.
  rewrite Handled_some. split; [discriminate |].
  eexists. repeat split.
Qed.

(** C9 (message override).  For a non-nil [e] and any [m],
    [HandledWithMessage(e, m)] is a non-nil [*barrierError] whose [Error()]
    is exactly [m] and whose masked cause is [e]; the message is the same
    for any other masked error [e']. *)
Theorem HandledWithMessage_overrides_message (e : errorValue) (m : string) :
  HandledWithMessage (Some e) m <> nil_error /\
  (exists b : barrierError,
      HandledWithMessage (Some e) m = Some (Barrier b) /\
      Error b = m /\
      maskedErr b = Some e) /\
  forall e' : errorValue,
    error_Error (HandledWithMessage (Some e') m) =
    error_Error (HandledWithMessage (Some e) m).
Proof.
  split; [discriminate |]. split; [| reflexivity].
  eexists. repeat split.
Qed.

(** C10 (barriers are not collapsed).  For a non-nil [e],
    [Handled(Handled(e))] is a barrier whose masked cause is the barrier
    [Handled(e)], with the same message and distinct from it; after any
    number [n+1] of applications of [Handled] the message is still
    [e.Error()] and [n+1] barrier levels have been stacked on [e]. *)
Theorem Handled_rewraps (e : errorValue) :
  (exists b1 b2 : barrierError,
      Handled (Some e) = Some (Barrier b1) /\
      Handled (Handled (Some e)) = Some (Barrier b2) /\
      maskedErr b2 = Some (Barrier b1) /\
      Error b2 = Error b1 /\
      Barrier b2 <> Barrier b1) /\
  forall n : nat,
    error_Error (Nat.iter (S n) Handled (Some e)) = Returns (err_Error e) /\
    error_levels (Nat.iter (S n) Handled (Some e)) = S n + barrier_levels e.
Proof.
  split.
  - do 2 eexists. rewrite !Handled_some.
    repeat (split; [reflexivity |]).
    intros Heq. apply (f_equal err_size) in Heq. simpl in Heq. lia.
  - intros n. destruct (Handled_iter e (S n)) as [x (Hx & Hmsg & Hlev)].
    rewrite Hx. simpl. now rewrite Hmsg, Hlev.
Qed.

(** C4 (encoder contract).  On a [*barrierError] the encoder returns the
    cached message, the result of [SafeDetails] and the external encoding of
    the masked cause; on nil and on an error of any other dynamic type it
    panics. *)
Theorem encodeBarrier_contract (ctx : context) :
  (forall e : barrierError,
      encodeBarrier ctx (Some (Barrier e)) =
      Returns (msg e, SafeDetails e,
               EncodedErrorPtr (EncodeError ctx (maskedErr e)))) /\
  (forall (x : extError) (cause : error),
      encodeBarrier ctx (Some (External x cause)) = Panics) /\
  encodeBarrier ctx nil_error = Panics.
Proof. repeat split. Qed.

(** C5 (decoder contract).  On a payload that is an [*errbase.EncodedError]
    the decoder returns a [*barrierError] with the given message and the
    external decoding of the payload as masked cause; on any other payload
    it panics; the details argument never influences the outcome. *)
Theorem decodeBarrier_contract (ctx : context) (m : string)
  (details : list string) :
  (forall enc : EncodedError,
      decodeBarrier ctx m details (EncodedErrorPtr enc) =
      Returns (Some (Barrier {| msg := m; maskedErr := DecodeError ctx enc |}))) /\
  (forall o : otherMessage,
      decodeBarrier ctx m details (OtherMessage o) = Panics) /\
  (forall (details' : list string) (payload : protoMessage),
      decodeBarrier ctx m details' payload =
      decodeBarrier ctx m details payload).
Proof. repeat split. Qed.

(** C2 (round trip).  For a non-nil [e], encoding [Handled(e)] and decoding
    the result returns, without panicking, a [*barrierError] whose message is
    the message of [Handled(e)] and whose masked cause is the external
    decoding of the external encoding of [e]. *)
Theorem barrier_round_trip (ctx ctx' : context) (e : errorValue) :
  exists b b' : barrierError,
    Handled (Some e) = Some (Barrier b) /\
    decodeEncoded ctx' (encodeBarrier ctx (Handled (Some e))) =
      Returns (Some (Barrier b')) /\
    Error b' = Error b /\
    maskedErr b' = DecodeError ctx' (EncodeError ctx (Some e)).
Proof.
  rewrite Handled_some. do 2 eexists.
  split; [reflexivity |]. simpl. repeat split.
Qed.

(** C6 (two-level rendering).  Without detail, [FormatError] sends the
    printer one call, [Print] of the cached message, and nothing else.  With
    detail it sends that call and then one [Printf] whose format is a
    newline, the label, a newline and the verbose verb [%+v], applied to the
    masked cause.  In both modes the receiver comes back unchanged, masked
    cause included, and [next] is nil.  [Format] hands the barrier itself to
    the driver: when the verb asks for compact rendering the driver gets
    exactly the first call, when it asks for detail exactly the two, each
    time with a nil [next]. *)
Theorem FormatError_two_levels (e : barrierError) (out : list printCall) :
  FormatError e (mkPrinter false out) =
    (e, mkPrinter false (out ++ [PrintCall [AnyString (msg e)]]), nil_error) /\
  FormatError e (mkPrinter true out) =
    (e,
     mkPrinter true
       ((out ++ [PrintCall [AnyString (msg e)]]) ++
        [PrintfCall causeFormat [AnyError (maskedErr e)]]),
     nil_error) /\
  causeFormat = (LF ++ "original cause behind barrier:" ++ LF ++ "%+v")%string /\
  forall (s : fmtState) (verb : rune),
    Format e s verb =
    match requestedDetail s verb with
    | Some false =>
        emit s verb [PrintCall [AnyString (msg e)]] nil_error
    | Some true =>
        emit s verb
             [PrintCall [AnyString (msg e)];
              PrintfCall causeFormat [AnyError (maskedErr e)]]
             nil_error
    | None => formatOther (Barrier e) s verb
    end.
Proof.
  repeat split. intros s verb.
  unfold Format, errbase_FormatError.
  destruct (requestedDetail s verb) as [[|]|]; reflexivity.
Qed.

(** Whatever [Fill] does, the loop of [SafeDetails] applies it once per link
    of the chain, outermost link first, starting from [details]. *)
Lemma SafeDetails_loop_fold (err : error) (details : list string) :
  SafeDetails_loop err details =
  fold_left (fun acc link => Fill (GetSafeDetails link) acc)
            (causal_chain err) details.
Proof.
  funelim (SafeDetails_loop err details);
    simp SafeDetails_loop causal_chain; simpl; trivial.
Qed.

(** ** Further properties of the package *)

(** X1.  [HandledWithMessagef] is [HandledWithMessage] applied to the
    formatted message, on every input, nil included; on a non-nil error
    [Handled] is [HandledWithMessage] applied to the error's own message. *)
Theorem constructors_factor_through_HandledWithMessage (err : error)
  (format : string) (args : list any) :
  HandledWithMessagef err format args =
    HandledWithMessage err (Sprintf format args) /\
  (forall e : errorValue,
      Handled (Some e) = HandledWithMessage (Some e) (err_Error e)).
Proof. destruct err; split; reflexivity. Qed.

(** X2.  Each constructor returns nil exactly when it is given nil. *)
Theorem constructors_nil_iff (err : error) (m format : string)
  (args : list any) :
  (Handled err = nil_error <-> err = nil_error) /\
  (HandledWithMessage err m = nil_error <-> err = nil_error) /\
  (HandledWithMessagef err format args = nil_error <-> err = nil_error).
Proof.
  destruct err as [e|]; simpl; repeat split; intros H;
    solve [discriminate H | reflexivity].
Qed.

(** X3.  When the causal codec gives back the masked cause of a barrier
    unchanged, encoding the barrier and decoding the result gives back the
    barrier itself: same message, same masked cause. *)
Theorem barrier_round_trip_exact (ctx ctx' : context) (b : barrierError) :
  DecodeError ctx' (EncodeError ctx (maskedErr b)) = maskedErr b ->
  decodeEncoded ctx' (encodeBarrier ctx (Some (Barrier b))) =
  Returns (Some (Barrier b)).
Proof.
  intros Hexact. destruct b as [m c]. simpl in *. now rewrite Hexact.
Qed.

(** X4.  Whenever the decoder returns, it returns a non-nil error that is a
    [*barrierError] carrying the given message; the payload was an
    [*errbase.EncodedError] and the masked cause is its decoding.  It never
    returns nil or an error of another type. *)
Theorem decodeBarrier_returns_barrier (ctx : context) (m : string)
  (details : list string) (payload : protoMessage) (r : error) :
  decodeBarrier ctx m details payload = Returns r ->
  exists (b : barrierError) (enc : EncodedError),
    r = Some (Barrier b) /\
    msg b = m /\
    payload = EncodedErrorPtr enc /\
    maskedErr b = DecodeError ctx enc /\
    UnwrapOnce (Barrier b) = nil_error.
Proof.
  destruct payload as [enc|o]; simpl; intros H; [| discriminate H].
  injection H as <-. eexists. exists enc. repeat split.
Qed.


Lemma causal_chain_wrapWith (xs : list extError) (inner : error) :
  causal_chain (wrapWith xs inner) = wrappers xs inner ++ causal_chain inner.
Proof.
  induction xs as [|x xs IH]; simpl; [reflexivity |].
  simp causal_chain. simpl. now rewrite IH.
Qed.

Lemma wrappers_length (xs : list extError) (inner : error) :
  length (wrappers xs inner) = length xs.
Proof. induction xs as [|x xs IH]; simpl; auto. Qed.

(** X8.  The loop of [SafeDetails] stops at the first barrier of the masked
    chain.  When the masked error is a barrier under any number of foreign
    wrappers, the links visited are the wrappers and that barrier, one more
    than there are wrappers, however deep the chain masked by the inner
    barrier; the result is one [Fill] per wrapper, outermost first, then one
    [Fill] of what [GetSafeDetails] reports for the inner barrier. *)
Theorem SafeDetails_stops_at_barrier (xs : list extError)
  (inner : barrierError) (m : string) :
  let masked := wrapWith xs (Some (Barrier inner)) in
  causal_chain masked = wrappers xs (Some (Barrier inner)) ++ [Barrier inner] /\
  length (causal_chain masked) = S (length xs) /\
  SafeDetails {| msg := m; maskedErr := masked |} =
    Fill (GetSafeDetails (Barrier inner))
         (fold_left (fun acc link => Fill (GetSafeDetails link) acc)
                    (wrappers xs (Some (Barrier inner))) []).
Proof.
  intros masked.
  assert (Hchain : causal_chain masked =
                   wrappers xs (Some (Barrier inner)) ++ [Barrier inner]).
  { unfold masked. now rewrite causal_chain_wrapWith, causal_chain_barrier. }
  split; [exact Hchain |]. split.
  - rewrite Hchain, length_app, wrappers_length. simpl. lia.
  - unfold SafeDetails. simpl.
    rewrite SafeDetails_loop_fold, Hchain, fold_left_app. reflexivity.
Qed.

End Errors.

Arguments External {extError} x cause.
Arguments Barrier {extError} b.
Arguments EncodedErrorPtr {EncodedError otherMessage} enc.
Arguments OtherMessage {EncodedError otherMessage} m.
Arguments AnyString {extError otherValue} s.
Arguments AnyError {extError otherValue} e.
Arguments AnyOther {extError otherValue} v.
Arguments PrintCall {extError otherValue} args.
Arguments PrintfCall {extError otherValue} format args.
Arguments mkPrinter {extError otherValue} wantDetail printed.

(** ** Safe details as [errbase] fills them *)

Section ErrbaseDetails.

Variable extError : Type.
Variable detailsHeader : string -> string.
Variable GetSafeDetails : errorValue extError -> errbase.SafeDetailPayload.











End ErrbaseDetails.

(** ** A concrete setting

    Foreign errors carry a message and their own safe details; the causal
    codec is the identity; the payloads and [Fill] are those of [errbase]. *)
Module Scenario.

Definition simpleError : Type := string * list string.
Definition simpleError_Error (x : simpleError) : string := fst x.

Definition evalue : Type := errorValue simpleError.

Definition header (typeName : string) : string :=
  ("-- details for " ++ typeName ++ ":")%string.

Definition typeName (e : evalue) : string :=
  match e with
  | External _ _ => "*scenario.simpleError"
  | Barrier _ => "*barriers.barrierError"
  end.

(** What the loop of [SafeDetails] collects from the link [e] inwards, where
    a barrier in the chain answers with its own [SafeDetails], as
    [errbase.GetSafeDetails] does for a type that implements
    [SafeDetailer]. *)
Fixpoint chainDetails (e : evalue) : list string :=
  errbase.written header
    {| errbase.OriginalTypeName := typeName e;
       errbase.SafeDetails :=
         match e with
         | External x _ => snd x
         | Barrier b =>
             match maskedErr b with
             | None => []
             | Some m => chainDetails m
             end
         end |} ++
  (match e with
   | External _ (Some c) => chainDetails c
   | _ => []
   end).

Definition getSafeDetails (e : evalue) : errbase.SafeDetailPayload :=
  {| errbase.OriginalTypeName := typeName e;
     errbase.SafeDetails :=
       match e with
       | External x _ => snd x
       | Barrier b =>
           match maskedErr b with
           | None => []
           | Some m => chainDetails m
           end
       end |}.

Definition fill : errbase.SafeDetailPayload -> list string -> list string :=
  errbase.Fill header.

Definition safeDetails (b : barrierError simpleError) : list string :=
  SafeDetails simpleError errbase.SafeDetailPayload getSafeDetails fill b.


Definition handled : error simpleError -> error simpleError :=
  Handled simpleError simpleError_Error.

Definition diskFull : evalue :=
  External ("disk full", ["errno=28"; "dev=sda"]) None.
Definition readFailed : evalue :=
  External ("read: disk full", []) (Some diskFull).
Definition openFailed : evalue :=
  External ("open: read: disk full", ["op=open"]) (Some readFailed).
Definition connectionRefused : evalue :=
  External ("connection refused", []) None.

Definition encode (ctx : unit) (e : error simpleError)
  : outcome (string * list string * protoMessage (error simpleError) unit) :=
  encodeBarrier simpleError unit (error simpleError) (fun _ e => e)
                unit errbase.SafeDetailPayload getSafeDetails fill ctx e.

Definition decode (ctx : unit)
  (r : outcome (string * list string * protoMessage (error simpleError) unit))
  : outcome (error simpleError) :=
  decodeEncoded simpleError unit (error simpleError) (fun _ e => e) unit ctx r.

Example chain_of_openFailed :
  causal_chain simpleError (Some openFailed) = [openFailed; readFailed; diskFull].
Proof. reflexivity. Qed.

Example safeDetails_of_openFailed :
  safeDetails {| msg := "failed"; maskedErr := Some openFailed |} =
  ["-- details for *scenario.simpleError:"; "op=open";
   "-- details for *scenario.simpleError:"; "errno=28"; "dev=sda"].
Proof. reflexivity. Qed.

Example connection_refused_scenario :
  handled (Some connectionRefused) =
    Some (Barrier {| msg := "connection refused";
                     maskedErr := Some connectionRefused |}) /\
  safeDetails {| msg := "connection refused";
                 maskedErr := Some connectionRefused |} = [] /\
  FormatError simpleError unit
    {| msg := "connection refused"; maskedErr := Some connectionRefused |}
    (mkPrinter false []) =
    ({| msg := "connection refused"; maskedErr := Some connectionRefused |},
     mkPrinter false [PrintCall [AnyString "connection refused"]],
     None) /\
  decode tt (encode tt (handled (Some connectionRefused))) =
    Returns (Some (Barrier {| msg := "connection refused";
                              maskedErr := Some connectionRefused |})).
Proof. repeat split. Qed.

Example internal_error_scenario :
  HandledWithMessage simpleError (Some diskFull) "internal error" =
    Some (Barrier {| msg := "internal error"; maskedErr := Some diskFull |}) /\
  snd (fst (FormatError simpleError unit
              {| msg := "internal error"; maskedErr := Some diskFull |}
              (mkPrinter true []))) =
    mkPrinter true
      [PrintCall [AnyString "internal error"];
       PrintfCall (causeFormat) [AnyError (Some diskFull)]].
Proof. repeat split. Qed.





(** The identity codec gives back the masked cause, so the round trip gives
    back the barrier. *)
Lemma barrier_round_trip_exact_witness :
  (fun (_ : unit) (e : error simpleError) => e) tt
    ((fun (_ : unit) (e : error simpleError) => e) tt (Some openFailed)) =
    Some openFailed /\
  decode tt (encode tt (Some (Barrier {| msg := "failed";
                                         maskedErr := Some openFailed |}))) =
  Returns (Some (Barrier {| msg := "failed"; maskedErr := Some openFailed |})).
Proof.
  split; [reflexivity |].
  apply (barrier_round_trip_exact simpleError unit (error simpleError)
           (fun _ e => e) (fun _ e => e) unit errbase.SafeDetailPayload
           getSafeDetails fill tt tt
           {| msg := "failed"; maskedErr := Some openFailed |}).
  reflexivity.
Defined.

(** The decoder returns on an encoded-error payload, and what it returns is a
    barrier. *)
Lemma decodeBarrier_returns_barrier_witness :
  decodeBarrier simpleError unit (error simpleError) (fun _ e => e) unit
    tt "failed" ["stale"] (EncodedErrorPtr (Some diskFull)) =
    Returns (Some (Barrier {| msg := "failed"; maskedErr := Some diskFull |})) /\
  exists (b : barrierError simpleError) (enc : error simpleError),
    Some (Barrier {| msg := "failed"; maskedErr := Some diskFull |}) =
      Some (Barrier b) /\
    msg b = "failed" /\
    @EncodedErrorPtr (error simpleError) unit (Some diskFull) =
      EncodedErrorPtr enc /\
    maskedErr b = enc /\
    UnwrapOnce simpleError (Barrier b) = None.
Proof.
  split; [reflexivity |].
  apply (decodeBarrier_returns_barrier simpleError unit (error simpleError)
           (fun _ e => e) unit tt "failed" ["stale"]
           (EncodedErrorPtr (Some diskFull))
           (Some (Barrier {| msg := "failed"; maskedErr := Some diskFull |}))).
  reflexivity.
Defined.


Example one_barrier_details :
  match handled (Some diskFull) with
  | Some (Barrier b) => safeDetails b
  | _ => []
  end = ["-- details for *scenario.simpleError:"; "errno=28"; "dev=sda"].
Proof. reflexivity. Qed.

Example three_barriers_details :
  match Nat.iter 3 handled (Some diskFull) with
  | Some (Barrier b) => safeDetails b
  | _ => []
  end = ["-- details for *barriers.barrierError:";
         "-- details for *barriers.barrierError:";
         "-- details for *scenario.simpleError:"; "errno=28"; "dev=sda"].
Proof. reflexivity. Qed.

End Scenario.

End barriers.
